(** * joren.co: the build configuration of a static blog

    The repository is configuration for three tools: the site generator
    (the configuration function that registers the [posts] collection, the
    [image] shortcode, two layout aliases and a plugin), the stylesheet
    pipeline ([postcss.config.js]) and the utility-class framework.  This
    file embeds the two configuration functions and the part of the tools'
    interfaces they go through, and proves what the specification says
    about them. *)

From Stdlib Require Import ZArith List Ascii String Bool Lia.
From stdpp Require Import gmap strings list fin_maps pretty.
Import ListNotations.

Local Open Scope string_scope.
Local Open Scope Z_scope.

(** ** JavaScript values

    Only what the configuration inspects: a value is compared with [===]
    against the literals [true] and ['production'], and read out of an
    object by property name. *)

Module JS.

Inductive jsval : Type :=
| JUndefined
| JNull
| JBoolean (b : bool)
| JNumber (n : Z)
| JString (s : string)
| JObject (ref : positive).

#[global] Instance jsval_eq_dec : EqDecision jsval.
Proof. solve_decision. Defined.

(** [x === y]: no conversion, values of different types are different;
    objects are compared by reference. *)
Definition strictEquals (x y : jsval) : bool :=
  match x, y with
  | JUndefined, JUndefined => true
  | JNull, JNull => true
  | JBoolean a, JBoolean b => Bool.eqb a b
  | JNumber a, JNumber b => Z.eqb a b
  | JString a, JString b => String.eqb a b
  | JObject a, JObject b => Pos.eqb a b
  | _, _ => false
  end.

(** [x !== y] *)
Definition strictNotEquals (x y : jsval) : bool := negb (strictEquals x y).

(** [o.k] on a plain object: a property that is not there reads as
    [undefined]. *)
Definition get (o : gmap string jsval) (k : string) : jsval :=
  default JUndefined (o !! k).

(** [Boolean(x)], the predicate of [.filter(Boolean)]. *)
Definition truthy (x : jsval) : bool :=
  match x with
  | JUndefined | JNull => false
  | JBoolean b => b
  | JNumber n => negb (Z.eqb n 0)
  | JString s => match s with EmptyString => false | String _ _ => true end
  | JObject _ => true
  end.

End JS.
Import JS.

(** ** Glob patterns

    The generator matches the input path of a content item against the glob.
    The pattern of the configuration, [_posts/*.md], uses literal characters
    and one [*]; a [*] stands for a run of characters of one path segment,
    so it never takes a [/]. *)

Module Glob.

Inductive token : Type :=
| Lit (c : ascii)
| Star.

Definition slash : ascii := "/"%char.

Definition tokenize (pattern : string) : list token :=
  List.map (fun c => if Ascii.eqb c "*"%char then Star else Lit c)
           (list_ascii_of_string pattern).

Fixpoint matchTokens (ts : list token) (s : list ascii) {struct ts} : bool :=
  match ts with
  | [] => match s with [] => true | _ :: _ => false end
  | Lit c :: ts' =>
      match s with
      | x :: s' => Ascii.eqb c x && matchTokens ts' s'
      | [] => false
      end
  | Star :: ts' =>
      (fix star (s : list ascii) : bool :=
         matchTokens ts' s
         || match s with
            | x :: s' => negb (Ascii.eqb x slash) && star s'
            | [] => false
            end) s
  end.

(** Paths and globs are compared relative to the project root: a leading
    [./] on either side is dropped first. *)
Definition stripLeadingDotSlash (p : string) : string :=
  match p with
  | String a (String b rest) =>
      if Ascii.eqb a "."%char && Ascii.eqb b "/"%char then rest else p
  | _ => p
  end.

Definition isGlobMatch (path glob : string) : bool :=
  matchTokens (tokenize (stripLeadingDotSlash glob))
              (list_ascii_of_string (stripLeadingDotSlash path)).

(** The two literal parts of [_posts/*.md]. *)
Definition posts_dir : list ascii := list_ascii_of_string "_posts/".
Definition md_ext : list ascii := list_ascii_of_string ".md".

End Glob.

(** ** The image library

    The shortcode goes through two entry points of the external image
    library: the asynchronous [Image(src, options)], which reads the source
    file, writes the resized files and resolves with their metadata or
    rejects, and the synchronous [Image.generateHTML(metadata, attributes)],
    which returns markup or throws.  Both are a black box here: the
    development is parametric in an instance of [Library]. *)

Module EleventyImg.

Record ImageOptions : Type := mkImageOptions {
  widths : list Z;
  outputDir : string
}.

Record ImageAttributes : Type := mkImageAttributes {
  alt : jsval;
  sizes : jsval
}.

Record JsError : Type := mkJsError {
  code : string;
  message : string
}.

(** How a promise settles, or how a call returns or throws. *)
Inductive Outcome (A : Type) : Type :=
| Resolved (a : A)
| Rejected (e : JsError).
Arguments Resolved {A} a.
Arguments Rejected {A} e.

Class Library : Type := {
  Metadata : Type;
  FileSystem : Type;
  Image : jsval -> ImageOptions -> FileSystem -> Outcome Metadata * FileSystem;
  generateHTML : Metadata -> ImageAttributes -> Outcome string
}.


(** A call into the library, as the build observes it. *)
Inductive Call `{L : Library} : Type :=
| CallImage (src : jsval) (options : ImageOptions)
| CallGenerateHTML (metadata : Metadata) (attributes : ImageAttributes).

Record World `{L : Library} : Type := mkWorld {
  files : FileSystem;
  calls : list Call
}.

(** An [async] function body: it runs in a world, changes it, and settles. *)
Definition Async `{L : Library} (A : Type) : Type := World -> Outcome A * World.

Definition ret `{L : Library} {A : Type} (a : A) : Async A :=
  fun w => (Resolved a, w).

(** [await]: a rejection of the awaited promise is the rejection of the
    whole function, and nothing after it runs. *)
Definition bind `{L : Library} {A B : Type} (m : Async A) (k : A -> Async B) : Async B :=
  fun w =>
    match m w with
    | (Resolved a, w') => k a w'
    | (Rejected e, w') => (Rejected e, w')
    end.

Definition awaitImage `{L : Library} (src : jsval) (options : ImageOptions) : Async Metadata :=
  fun w =>
    let (r, fs) := Image src options (files w) in
    (r, {| files := fs; calls := calls w ++ [CallImage src options] |}).

Definition callGenerateHTML `{L : Library}
    (metadata : Metadata) (attributes : ImageAttributes) : Async string :=
  fun w =>
    (generateHTML metadata attributes,
     {| files := files w; calls := calls w ++ [CallGenerateHTML metadata attributes] |}).

End EleventyImg.
Import EleventyImg.

Notation "'await' x ':=' m 'in' k" := (EleventyImg.bind m (fun x => k))
  (at level 10, x name, m at level 100, k at level 200).

(** ** The generator's interface, as far as the configuration uses it *)

Module Eleventy.

(** A content item of a collection: where it was read from and its
    front-matter data. *)
Record Item : Type := mkItem {
  inputPath : string;
  data : gmap string jsval
}.


(** The collection API handed to a collection callback holds all content
    items, in the generator's order. *)
Record CollectionApi : Type := mkCollectionApi {
  getAll : list Item
}.

Definition getFilteredByGlob (api : CollectionApi) (glob : string) : list Item :=
  List.filter (fun item => Glob.isGlobMatch (inputPath item) glob) (getAll api).

Inductive Plugin : Type :=
| SyntaxHighlight.

(** A shortcode is called with the arguments of the tag. *)
Definition Shortcode `{L : Library} : Type := list jsval -> Async string.

(** The configuration object: every registration stores its argument
    under the given name; plugins are kept in the order they were added. *)
Record UserConfig `{L : Library} : Type := mkUserConfig {
  collections : gmap string (CollectionApi -> list Item);
  nunjucksAsyncShortcodes : gmap string Shortcode;
  layoutAliases : gmap string string;
  plugins : list Plugin
}.

Definition freshConfig `{L : Library} : UserConfig :=
  {| collections := ∅; nunjucksAsyncShortcodes := ∅;
     layoutAliases := ∅; plugins := [] |}.

Definition addCollection `{L : Library}
    (name : string) (callback : CollectionApi -> list Item) (c : UserConfig) : UserConfig :=
  {| collections := <[name := callback]> (collections c);
     nunjucksAsyncShortcodes := nunjucksAsyncShortcodes c;
     layoutAliases := layoutAliases c;
     plugins := plugins c |}.

Definition addNunjucksAsyncShortcode `{L : Library}
    (name : string) (callback : Shortcode) (c : UserConfig) : UserConfig :=
  {| collections := collections c;
     nunjucksAsyncShortcodes := <[name := callback]> (nunjucksAsyncShortcodes c);
     layoutAliases := layoutAliases c;
     plugins := plugins c |}.

Definition addLayoutAlias `{L : Library}
    (from to : string) (c : UserConfig) : UserConfig :=
  {| collections := collections c;
     nunjucksAsyncShortcodes := nunjucksAsyncShortcodes c;
     layoutAliases := <[from := to]> (layoutAliases c);
     plugins := plugins c |}.

Definition addPlugin `{L : Library} (plugin : Plugin) (c : UserConfig) : UserConfig :=
  {| collections := collections c;
     nunjucksAsyncShortcodes := nunjucksAsyncShortcodes c;
     layoutAliases := layoutAliases c;
     plugins := plugins c ++ [plugin] |}.

(** What the configuration function hands back. *)
Record ReturnedConfig : Type := mkReturnedConfig {
  markdownTemplateEngine : string
}.

(** Resolving the layout named in a document's front matter. *)
Definition resolveLayout `{L : Library} (c : UserConfig) (name : string) : option string :=
  layoutAliases c !! name.

End Eleventy.
Import Eleventy.

(** ** The generator configuration file *)

Definition imageOptions : ImageOptions :=
  {| widths := [400; 800; 1000; 1200; 1450];
     outputDir := "./_site/img/" |}.

Definition imageShortcode `{L : Library} (src alt sizes : jsval) : Async string :=
  await metadata := awaitImage src imageOptions in
  let imageAttributes := {| alt := alt; sizes := sizes |} in
  callGenerateHTML metadata imageAttributes.

Definition notHidden (post : Item) : bool :=
  strictNotEquals (JS.get (data post) "hidden") (JBoolean true).

Definition postsCollection (collectionApi : CollectionApi) : list Item :=
  List.filter notHidden (getFilteredByGlob collectionApi "_posts/*.md").

(** The [i]-th argument of a call; a missing one is [undefined]. *)
Definition argument (args : list jsval) (i : nat) : jsval :=
  nth i args JUndefined.

Definition module_exports `{L : Library} (eleventyConfig : UserConfig)
  : UserConfig * ReturnedConfig :=
  let c1 := addCollection "posts" postsCollection eleventyConfig in
  let c2 := addNunjucksAsyncShortcode "image"
              (fun args => imageShortcode (argument args 0) (argument args 1) (argument args 2))
              c1 in
  let c3 := addLayoutAlias "default" "layouts/default.njk" c2 in
  let c4 := addLayoutAlias "post" "layouts/post.njk" c3 in
  let c5 := addPlugin SyntaxHighlight c4 in
  (c5, {| markdownTemplateEngine := "njk" |}).

(** ** The stylesheet pipeline configuration *)

Module Postcss.

Inductive Plugin : Type :=
| PostcssImport
| Tailwindcss
| PostcssNested
| Cssnano (preset : string).

#[global] Instance Plugin_eq_dec : EqDecision Plugin.
Proof. solve_decision. Defined.

(** An element of the [plugins] array: a plugin, or a plain value such as
    the [false] left by a condition. *)
Inductive Entry : Type :=
| Use (p : Plugin)
| Value (v : jsval).

Record Config : Type := mkConfig {
  plugins : list Entry
}.

(** [postcss.config.js]: the exported function of the context. *)
Definition module_exports (ctx : gmap string jsval) : Config :=
  let env := JS.get ctx "env" in
  {| plugins :=
       [ Use PostcssImport;
         Use Tailwindcss;
         Use PostcssNested;
         if strictEquals env (JString "production")
         then Use (Cssnano "default")
         else Value (JBoolean false) ] |}.

(** The loader keeps the truthy entries of the array, in order; a plugin
    is a function or an object, hence truthy, and an entry that is truthy
    but not a plugin is refused. *)
Definition entryTruthy (e : Entry) : bool :=
  match e with
  | Use _ => true
  | Value v => truthy v
  end.

Fixpoint asPlugins (es : list Entry) : option (list Plugin) :=
  match es with
  | [] => Some []
  | Use p :: es' => option_map (cons p) (asPlugins es')
  | Value _ :: _ => None
  end.

Definition loadPlugins (c : Config) : option (list Plugin) :=
  asPlugins (List.filter entryTruthy (plugins c)).

(** The processor runs the stylesheet through the plugins, first to last. *)
Definition process {Css : Type} (transform : Plugin -> Css -> Css)
    (stages : list Plugin) (css : Css) : Css :=
  fold_left (fun acc p => transform p acc) stages css.

(** The compiled stylesheet for a context. *)
Definition compile {Css : Type} (transform : Plugin -> Css -> Css)
    (ctx : gmap string jsval) (css : Css) : option Css :=
  option_map (fun stages => process transform stages css)
             (loadPlugins (module_exports ctx)).

End Postcss.

(** ** Fixtures

    A small image library to run the shortcode against, and the content
    items of the repository's posts. *)

Module Fixture.

(** Files by path.  [Image] rejects when the source is not there;
    otherwise it writes one file per requested width into the output
    directory and resolves with the list of (width, path) it wrote.
    [generateHTML] refuses a missing [alt], as the library does. *)
Definition read (fs : gmap string string) (src : jsval) : option string :=
  match src with
  | JString path => fs !! path
  | _ => None
  end.

Definition variantPath (options : ImageOptions) (content : string) (w : Z) : string :=
  outputDir options ++ content ++ "-" ++ pretty w ++ ".png".

Definition image (src : jsval) (options : ImageOptions) (fs : gmap string string)
  : Outcome (list (Z * string)) * gmap string string :=
  match read fs src with
  | None => (Rejected {| code := "ENOENT"; message := "no such file or directory" |}, fs)
  | Some content =>
      let variants := List.map (fun w => (w, variantPath options content w)) (widths options) in
      (Resolved variants,
       fold_right (fun v acc => <[snd v := content]> acc) fs variants)
  end.

Definition text (v : jsval) : string :=
  match v with
  | JString s => s
  | _ => EmptyString
  end.

Definition html (metadata : list (Z * string)) (attributes : ImageAttributes)
  : Outcome string :=
  match alt attributes with
  | JUndefined =>
      Rejected {| code := "ERR_ALT"; message := "Missing `alt` attribute" |}
  | _ =>
      Resolved ("<img alt='" ++ text (alt attributes)
                ++ "' sizes='" ++ text (sizes attributes)
                ++ "' srcset='"
                ++ String.concat ", " (List.map (fun v => snd v ++ " " ++ pretty (fst v) ++ "w") metadata)
                ++ "'>")
  end.

#[local] Instance library : Library :=
  {| Metadata := list (Z * string);
     FileSystem := gmap string string;
     Image := image;
     generateHTML := html |}.


(** The project tree of the post that uses the shortcode: its two
    sketches are there, nothing else. *)
Definition before_png : string := "./img/flex-grow-9999-hack/before.png".
Definition after_png : string := "./img/flex-grow-9999-hack/after.png".

Definition tree : gmap string string :=
  <[before_png := "b3f0"]> (<[after_png := "a91c"]> ∅).

Definition world : World := {| files := tree; calls := [] |}.

(** Front matter of the posts under [src/_posts], and of three items that
    are not to be listed: a hidden draft, a post in a subdirectory and a
    page template. *)
Definition frontMatter (title description : string) : gmap string jsval :=
  <["layout" := JString "post"]>
    (<["title" := JString title]>
       (<["description" := JString description]> ∅)).

Definition craftPost : Item :=
  {| inputPath := "./_posts/2018-10-28-add-users-to-craft-with-content-migrations.md";
     data := frontMatter "Add users to Craft CMS with content migrations"
                         "Helpful when you and your team frequently set up Craft sites." |}.

Definition vuePost : Item :=
  {| inputPath := "./_posts/2022-09-10-vuejs-autosave.md";
     data := frontMatter "Autosave forms with the Vue.js composition API"
                         "Using debounce and a promise queue." |}.

Definition hiddenDraft : Item :=
  {| inputPath := "./_posts/draft.md";
     data := <["hidden" := JBoolean true]> (frontMatter "Draft" "Not yet.") |}.

Definition quotedHidden : Item :=
  {| inputPath := "./_posts/quoted.md";
     data := <["hidden" := JString "true"]> (frontMatter "Quoted" "A string, not a boolean.") |}.

Definition nestedPost : Item :=
  {| inputPath := "./_posts/archive/old.md";
     data := frontMatter "Old" "In a subdirectory." |}.

Definition bareFile : Item :=
  {| inputPath := "./_posts/notes.txt"; data := ∅ |}.

Definition indexPage : Item :=
  {| inputPath := "./index.njk"; data := <["layout" := JString "default"]> ∅ |}.

Definition api : CollectionApi :=
  {| getAll := [indexPage; craftPost; hiddenDraft; nestedPost; quotedHidden; bareFile; vuePost] |}.

End Fixture.

(** ** The utility-class framework configuration

    A plain object.  [colors.coolGray] is a palette of the framework and the
    one plugin is a package: both are named, not expanded.  Objects whose
    key order the framework reads (the screens) are kept as association
    lists in source order. *)

Module Tailwind.

Inductive Palette : Type :=
| CoolGray.

Inductive Plugin : Type :=
| DebugScreens.

Record Extend : Type := mkExtend {
  colors : list (string * Palette);
  padding : list (string * string);
  margin : list (string * string)
}.

Record Theme : Type := mkTheme {
  screens : list (string * string);
  extend : Extend
}.

Record Variants : Type := mkVariants {
  variants_extend : list (string * list string)
}.

Record Config : Type := mkConfig {
  mode : string;
  purge : list string;
  darkMode : string;
  theme : Theme;
  variants : Variants;
  plugins : list Plugin;
  corePlugins : list (string * bool)
}.

Definition module_exports : Config :=
  {| mode := "jit";
     purge := [ "**/*.njk"; "_posts/*.md" ];
     darkMode := "media";
     theme :=
       {| screens := [ ("xs", "360px"); ("sm", "640px");
                       ("md", "768px"); ("lg", "1024px") ];
          extend :=
            {| colors := [ ("gray", CoolGray) ];
               padding := [ ("container", "var(--container-spacing)") ];
               margin := [ ("-container", "calc(var(--container-spacing) * -1)") ] |} |};
     variants := {| variants_extend := [] |};
     plugins := [ DebugScreens ];
     corePlugins := [ ("container", false) ] |}.

End Tailwind.

(** ** Edits of the content

    Setting one front-matter attribute of an item, and the collection API
    over a given list of items. *)

Definition setData (k : string) (v : jsval) (item : Item) : Item :=
  {| inputPath := inputPath item; data := <[k := v]> (data item) |}.

Definition apiOf (items : list Item) : CollectionApi :=
  {| getAll := items |}.

(** Writing [hidden: true] into the front matter of the file at [path]. *)
Definition hide (path : string) (item : Item) : Item :=
  if String.eqb (inputPath item) path
  then setData "hidden" (JBoolean true) item
  else item.

(** What the two filters of the [posts] collection keep, as one predicate. *)
Definition listed (item : Item) : bool :=
  Glob.isGlobMatch (inputPath item) "_posts/*.md" && notHidden item.

(** * Properties *)

(** ** Strict equality and property lookup *)

Lemma strictEquals_spec (x y : jsval) : strictEquals x y = true <-> x = y.
Proof.
  destruct x, y; simpl; split; intros H; try discriminate; try reflexivity.
  - apply Bool.eqb_prop in H. congruence.
  - injection H as ->. apply Bool.eqb_reflx.
  - apply Z.eqb_eq in H. congruence.
  - injection H as ->. apply Z.eqb_refl.
  - apply String.eqb_eq in H. congruence.
  - injection H as ->. apply String.eqb_refl.
  - apply Pos.eqb_eq in H. congruence.
  - injection H as ->. apply Pos.eqb_refl.
Qed.

Lemma strictEquals_false (x y : jsval) : strictEquals x y = false <-> x <> y.
Proof.
  rewrite <- strictEquals_spec. destruct (strictEquals x y); split; congruence.
Qed.


Lemma notHidden_spec (post : Item) :
  notHidden post = true <-> JS.get (data post) "hidden" <> JBoolean true.
Proof.
  unfold notHidden, strictNotEquals.
  rewrite Bool.negb_true_iff. apply strictEquals_false.
Qed.

(** ** Lists: what a filter keeps *)

Section Filter.
Context {A : Type} (eq_dec : forall x y : A, {x = y} + {x <> y}).
Variable keep : A -> bool.


End Filter.

(** ** The glob [_posts/*.md] *)

Section GlobFacts.
Import Glob.

Lemma list_ascii_of_string_app (a b : string) :
  list_ascii_of_string (a ++ b) = (list_ascii_of_string a ++ list_ascii_of_string b)%list.
Proof. induction a as [|c a IH]; simpl; [reflexivity | now rewrite IH]. Qed.

Lemma string_of_list_ascii_app (a b : list ascii) :
  string_of_list_ascii (a ++ b)%list
  = (string_of_list_ascii a ++ string_of_list_ascii b)%string.
Proof. induction a as [|c a IH]; simpl; [reflexivity | now rewrite IH]. Qed.

Lemma matchTokens_star (ts : list token) (s : list ascii) :
  matchTokens (Star :: ts) s
  = matchTokens ts s
    || match s with
       | x :: s' => negb (Ascii.eqb x slash) && matchTokens (Star :: ts) s'
       | [] => false
       end.
Proof. destruct s; reflexivity. Qed.

(** A [*] takes a run without [/], and the rest of the pattern the rest. *)
Lemma matchTokens_star_spec (ts : list token) (s : list ascii) :
  matchTokens (Star :: ts) s = true
  <-> exists run rest,
        s = (run ++ rest)%list
        /\ Forall (fun c => c <> slash) run
        /\ matchTokens ts rest = true.
Proof.
  split.
  - induction s as [|x s IH]; rewrite matchTokens_star; intros H.
    + rewrite Bool.orb_false_r in H. exists [], []. auto.
    + apply Bool.orb_true_iff in H as [H|H].
      * exists [], (x :: s). auto.
      * apply Bool.andb_true_iff in H as [Hx Hs].
        apply Bool.negb_true_iff, Ascii.eqb_neq in Hx.
        destruct (IH Hs) as (run & rest & -> & Hrun & Hrest).
        exists (x :: run), rest. repeat split; auto.
  - intros (run & rest & -> & Hrun & Hrest).
    induction Hrun as [|x run Hx _ IH]; cbn [app]; rewrite matchTokens_star.
    + now rewrite Hrest.
    + apply Ascii.eqb_neq in Hx. rewrite Hx, IH. apply Bool.orb_true_r.
Qed.

(** Literal characters stand for themselves. *)
Lemma matchTokens_lits (l : list ascii) (ts : list token) (s : list ascii) :
  matchTokens (List.map Lit l ++ ts) s = true
  <-> exists rest, s = (l ++ rest)%list /\ matchTokens ts rest = true.
Proof.
  revert s. induction l as [|c l IH]; intros s; simpl.
  - split; [intros H; exists s; auto | intros (rest & -> & H); exact H].
  - destruct s as [|x s].
    + split; [discriminate | intros (rest & Heq & _); discriminate].
    + rewrite Bool.andb_true_iff, Ascii.eqb_eq, IH. split.
      * intros (-> & rest & -> & H). exists rest. auto.
      * intros (rest & Heq & H). injection Heq as -> ->. eauto.
Qed.

Lemma matchTokens_lits_only (l s : list ascii) :
  matchTokens (List.map Lit l) s = true <-> s = l.
Proof.
  rewrite <- (app_nil_r (List.map Lit l)), matchTokens_lits. split.
  - intros (rest & -> & H). destruct rest; [apply app_nil_r | discriminate].
  - intros ->. exists []. now rewrite app_nil_r.
Qed.

Lemma tokenize_posts_glob :
  tokenize (stripLeadingDotSlash "_posts/*.md")
  = (List.map Lit posts_dir ++ Star :: List.map Lit md_ext)%list.
Proof. reflexivity. Qed.

(** The paths of the glob: [_posts/], a file name without [/], [.md]. *)
Lemma isGlobMatch_posts (path : string) :
  isGlobMatch path "_posts/*.md" = true
  <-> exists name,
        list_ascii_of_string (stripLeadingDotSlash path)
        = (posts_dir ++ name ++ md_ext)%list
        /\ Forall (fun c => c <> slash) name.
Proof.
  unfold isGlobMatch. rewrite tokenize_posts_glob, matchTokens_lits. split.
  - intros (rest & Hp & H).
    apply matchTokens_star_spec in H as (name & ext & -> & Hname & Hext).
    apply matchTokens_lits_only in Hext as ->. eauto.
  - intros (name & Hp & Hname). exists (name ++ md_ext)%list. split; [exact Hp|].
    apply matchTokens_star_spec. exists name, md_ext. repeat split; auto.
Qed.

Lemma stripLeadingDotSlash_suffix (p : string) :
  exists pre, p = (pre ++ stripLeadingDotSlash p)%string.
Proof.
  destruct p as [|a [|b p]]; try (exists EmptyString; reflexivity).
  unfold stripLeadingDotSlash.
  destruct (Ascii.eqb_spec a "."%char) as [->|Ha];
    [destruct (Ascii.eqb_spec b "/"%char) as [->|Hb]|]; simpl.
  - exists "./"%string. reflexivity.
  - exists EmptyString. reflexivity.
  - exists EmptyString. reflexivity.
Qed.

Lemma string_app_assoc (a b c : string) :
  ((a ++ b) ++ c = a ++ (b ++ c))%string.
Proof.
  induction a as [|x a IH]; [reflexivity|].
  change (String x ((a ++ b) ++ c) = String x (a ++ (b ++ c)))%string.
  now rewrite IH.
Qed.

(** A matching path ends in [.md]. *)
Lemma isGlobMatch_posts_extension (path : string) :
  isGlobMatch path "_posts/*.md" = true ->
  exists stem, path = (stem ++ ".md")%string.
Proof.
  intros H. apply isGlobMatch_posts in H as (name & Hp & _).
  destruct (stripLeadingDotSlash_suffix path) as (pre & Hpre).
  apply (f_equal string_of_list_ascii) in Hp.
  rewrite string_of_list_ascii_of_string in Hp.
  rewrite app_assoc, string_of_list_ascii_app in Hp.
  exists (pre ++ string_of_list_ascii (posts_dir ++ name))%string.
  rewrite string_app_assoc. rewrite Hpre at 1. now rewrite Hp.
Qed.

(** A matching path has nothing below [_posts/] but a file name. *)
Lemma isGlobMatch_posts_flat (path dir file : string) :
  stripLeadingDotSlash path = ("_posts/" ++ dir ++ "/" ++ file)%string ->
  isGlobMatch path "_posts/*.md" = false.
Proof.
  intros Hsub. apply Bool.not_true_is_false. intros H.
  apply isGlobMatch_posts in H as (name & Hp & Hname).
  rewrite Hsub in Hp. rewrite !list_ascii_of_string_app in Hp.
  apply app_inv_head in Hp.
  assert (Hin : In slash (name ++ md_ext)%list).
  { rewrite <- Hp. apply in_or_app. right. simpl. left. reflexivity. }
  apply in_app_or in Hin as [Hin|Hin].
  - rewrite List.Forall_forall in Hname. apply (Hname slash); auto.
  - simpl in Hin. unfold slash in Hin.
    repeat (destruct Hin as [Hin|Hin]; [discriminate|]). exact Hin.
Qed.
End GlobFacts.

(** ** The [posts] collection *)


Lemma postsCollection_In (api : CollectionApi) (P : Item) :
  In P (postsCollection api)
  <-> In P (getAll api)
      /\ Glob.isGlobMatch (inputPath P) "_posts/*.md" = true
      /\ notHidden P = true.
Proof.
  unfold postsCollection, getFilteredByGlob.
  rewrite !List.filter_In. tauto.
Qed.





(** A post with no front matter at all is the same case. *)
Lemma post_without_front_matter_is_listed (api : CollectionApi) (path : string) :
  In (mkItem path ∅) (getAll api) ->
  Glob.isGlobMatch path "_posts/*.md" = true ->
  In (mkItem path ∅) (postsCollection api).
Proof.
  intros Hin Hglob. apply postsCollection_In. repeat split; auto.
Qed.


(** C9: the glob is not recursive and asks for the [.md] extension: an item
    in a subdirectory of [_posts], or one whose path does not end in [.md],
    is never in the [posts] collection, whatever its front matter. *)
Theorem posts_glob_is_flat_markdown (api : CollectionApi) (P : Item) :
  (exists dir file,
      Glob.stripLeadingDotSlash (inputPath P) = ("_posts/" ++ dir ++ "/" ++ file)%string)
  \/ (forall stem, inputPath P <> (stem ++ ".md")%string) ->
  ~ In P (postsCollection api).
Proof.
  intros Hpath Hin. apply postsCollection_In in Hin as (_ & Hglob & _).
  destruct Hpath as [(dir & file & Hsub) | Hext].
  - rewrite (isGlobMatch_posts_flat _ dir file Hsub) in Hglob. discriminate.
  - destruct (isGlobMatch_posts_extension _ Hglob) as (stem & Hstem).
    exact (Hext stem Hstem).
Qed.

Lemma posts_glob_is_flat_markdown_witness :
  (exists dir file,
      Glob.stripLeadingDotSlash (inputPath Fixture.nestedPost)
      = ("_posts/" ++ dir ++ "/" ++ file)%string)
  /\ ~ In Fixture.nestedPost (postsCollection Fixture.api).
Proof.
  assert (H : exists dir file,
             Glob.stripLeadingDotSlash (inputPath Fixture.nestedPost)
             = ("_posts/" ++ dir ++ "/" ++ file)%string).
  { exists "archive"%string, "old.md"%string. reflexivity. }
  split; [exact H|].
  exact (posts_glob_is_flat_markdown Fixture.api Fixture.nestedPost (or_introl H)).
Defined.

(** The other fixture items: a file without the [.md] ending is left out, and
    a [hidden] that is the string ['true'] rather than the boolean does not
    hide the post. *)
Example posts_of_fixture :
  List.map inputPath (postsCollection Fixture.api)
  = [ "./_posts/2018-10-28-add-users-to-craft-with-content-migrations.md";
      "./_posts/quoted.md";
      "./_posts/2022-09-10-vuejs-autosave.md" ].
Proof. vm_compute. reflexivity. Qed.

Example bare_file_is_not_listed :
  ~ In Fixture.bareFile (postsCollection Fixture.api).
Proof.
  intros Hin. apply postsCollection_In in Hin as (_ & Hglob & _).
  vm_compute in Hglob. discriminate.
Qed.

(** ** What the configuration function registers *)

Lemma module_exports_registers `{L : Library} (c0 : UserConfig) :
  collections (fst (module_exports c0)) !! "posts" = Some postsCollection
  /\ (exists shortcode,
        nunjucksAsyncShortcodes (fst (module_exports c0)) !! "image" = Some shortcode
        /\ forall src alt sizes,
             shortcode [src; alt; sizes] = imageShortcode src alt sizes)
  /\ Eleventy.plugins (fst (module_exports c0)) = (Eleventy.plugins c0 ++ [SyntaxHighlight])%list
  /\ markdownTemplateEngine (snd (module_exports c0)) = "njk".
Proof.
  unfold module_exports; simpl. split; [apply lookup_insert_eq|].
  split; [|split; reflexivity].
  eexists. split; [apply lookup_insert_eq|]. reflexivity.
Qed.

(** ** The layout aliases *)

(** C4: after the configuration function has run, [default] resolves to
    [layouts/default.njk] and [post] to [layouts/post.njk], whatever the
    configuration held before; every other name resolves as it did before,
    so that from the generator's fresh configuration these two are the only
    aliases. *)
Theorem layout_aliases_resolve `{L : Library} :
  (forall c0 : UserConfig,
      resolveLayout (fst (module_exports c0)) "default" = Some "layouts/default.njk"
      /\ resolveLayout (fst (module_exports c0)) "post" = Some "layouts/post.njk")
  /\ (forall (c0 : UserConfig) (name : string),
         resolveLayout (fst (module_exports c0)) name
         = if decide (name = "post") then Some "layouts/post.njk"
           else if decide (name = "default") then Some "layouts/default.njk"
                else resolveLayout c0 name)
  /\ dom (layoutAliases (fst (module_exports freshConfig))) = {[ "default"; "post" ]}
  /\ size (layoutAliases (fst (module_exports freshConfig))) = 2%nat.
Proof.
  assert (Hlookup : forall (c0 : UserConfig) (name : string),
             resolveLayout (fst (module_exports c0)) name
             = if decide (name = "post") then Some "layouts/post.njk"
               else if decide (name = "default") then Some "layouts/default.njk"
                    else resolveLayout c0 name).
  { intros c0 name. unfold resolveLayout, module_exports; simpl.
    rewrite lookup_insert. case_decide as Hp.
    - subst. rewrite decide_True by reflexivity. reflexivity.
    - rewrite decide_False by congruence.
      rewrite lookup_insert. case_decide as Hd.
      + subst. rewrite decide_True by reflexivity. reflexivity.
      + rewrite decide_False by congruence. reflexivity. }
  split; [|split; [exact Hlookup|]].
  - intros c0. rewrite !Hlookup. split; reflexivity.
  - unfold module_exports; simpl. split.
    + rewrite !dom_insert_L, dom_empty_L. set_solver.
    + rewrite map_size_insert_None, map_size_insert_None, map_size_empty;
        [reflexivity | apply lookup_empty |].
      rewrite lookup_insert_ne by discriminate. apply lookup_empty.
Qed.

(** ** The image shortcode *)

(** One run of the shortcode: a single [Image] call with the fixed options,
    then [generateHTML] on what it resolved with. *)
Lemma imageShortcode_run `{L : Library} (src alt sizes : jsval) (w : World) :
  imageShortcode src alt sizes w
  = match Image src imageOptions (files w) with
    | (Resolved metadata, fs) =>
        (generateHTML metadata {| alt := alt; sizes := sizes |},
         {| files := fs;
            calls := calls w ++ [CallImage src imageOptions;
                                 CallGenerateHTML metadata {| alt := alt; sizes := sizes |}] |})
    | (Rejected e, fs) =>
        (Rejected e,
         {| files := fs; calls := calls w ++ [CallImage src imageOptions] |})
    end.
Proof.
  unfold imageShortcode, EleventyImg.bind, awaitImage, callGenerateHTML.
  destruct (Image src imageOptions (files w)) as [[metadata|e] fs]; simpl.
  - rewrite <- app_assoc. reflexivity.
  - reflexivity.
Qed.

(** C3: whatever the source path, the alt text and the sizes attribute, the
    shortcode asks the library once for the widths 400, 800, 1000, 1200 and
    1450 in [./_site/img/]; when the library resolves, the shortcode's result
    is the markup the library generates for the metadata with exactly the
    given [alt] and [sizes]. *)
Theorem imageShortcode_fixed_request `{L : Library} (src alt sizes : jsval) (w : World) :
  let options := {| widths := [400; 800; 1000; 1200; 1450];
                    outputDir := "./_site/img/" |} in
  let attributes := {| alt := alt; sizes := sizes |} in
  imageShortcode src alt sizes w
  = match Image src options (files w) with
    | (Resolved metadata, fs) =>
        (generateHTML metadata attributes,
         {| files := fs;
            calls := calls w ++ [CallImage src options;
                                 CallGenerateHTML metadata attributes] |})
    | (Rejected e, fs) =>
        (Rejected e,
         {| files := fs; calls := calls w ++ [CallImage src options] |})
    end.
Proof. intros options attributes. exact (imageShortcode_run src alt sizes w). Qed.

(** On the fixture the markup carries the two attributes of the tag. *)
Example imageShortcode_before_png :
  fst (imageShortcode (JString Fixture.before_png)
                      (JString "A sketch of how the result of the code would look.")
                      (JString "100vw") Fixture.world)
  = Resolved
      ("<img alt='A sketch of how the result of the code would look.' sizes='100vw' "
       ++ "srcset='./_site/img/b3f0-400.png 400w, ./_site/img/b3f0-800.png 800w, "
       ++ "./_site/img/b3f0-1000.png 1000w, ./_site/img/b3f0-1200.png 1200w, "
       ++ "./_site/img/b3f0-1450.png 1450w'>")%string.
Proof. vm_compute. reflexivity. Qed.



(** The first run did change the file system: it wrote the resized files. *)
Example imageShortcode_writes_variants :
  files (snd (imageShortcode (L := Fixture.library)
                (JString Fixture.before_png) (JString "A sketch") (JString "100vw")
                Fixture.world))
  !! "./_site/img/b3f0-400.png" = Some "b3f0"
  /\ files Fixture.world !! "./_site/img/b3f0-400.png" = None.
Proof. split; vm_compute; reflexivity. Qed.



(** ** The stylesheet pipeline *)

Section Pipeline.
Import Postcss.

Lemma module_exports_production (ctx : gmap string jsval) :
  JS.get ctx "env" = JString "production" ->
  loadPlugins (module_exports ctx)
  = Some [PostcssImport; Tailwindcss; PostcssNested; Cssnano "default"].
Proof. intros H. unfold loadPlugins, module_exports. rewrite H. reflexivity. Qed.

Lemma module_exports_other (ctx : gmap string jsval) :
  JS.get ctx "env" <> JString "production" ->
  loadPlugins (module_exports ctx)
  = Some [PostcssImport; Tailwindcss; PostcssNested].
Proof.
  intros H. apply strictEquals_false in H.
  unfold loadPlugins, module_exports. rewrite H. reflexivity.
Qed.

(** C5: for every context the stages run in the order import inlining,
    utility-class generation, nesting, then minification; minification is
    a stage exactly when the environment flag is production, and otherwise
    the compiled stylesheet is that of the first three stages. *)
Theorem pipeline_stages_in_order (ctx : gmap string jsval) :
  let production := strictEquals (JS.get ctx "env") (JString "production") in
  exists stages,
    loadPlugins (module_exports ctx) = Some stages
    /\ stages = ([PostcssImport; Tailwindcss; PostcssNested]
                 ++ if production then [Cssnano "default"] else [])%list
    /\ ((exists preset, In (Cssnano preset) stages)
        <-> JS.get ctx "env" = JString "production")
    /\ forall (Css : Type) (transform : Plugin -> Css -> Css) (css : Css),
         let chain := transform PostcssNested
                        (transform Tailwindcss (transform PostcssImport css)) in
         compile transform ctx css
         = Some (if production then transform (Cssnano "default") chain else chain).
Proof.
  intros production. subst production.
  destruct (strictEquals (JS.get ctx "env") (JString "production")) eqn:Henv.
  - apply strictEquals_spec in Henv.
    exists [PostcssImport; Tailwindcss; PostcssNested; Cssnano "default"].
    split; [now apply module_exports_production|]. split; [reflexivity|]. split.
    + split; [intros _; exact Henv|]. intros _. exists "default"%string.
      simpl. auto.
    + intros Css transform css chain. unfold compile.
      rewrite module_exports_production by exact Henv. reflexivity.
  - apply strictEquals_false in Henv.
    exists [PostcssImport; Tailwindcss; PostcssNested].
    split; [now apply module_exports_other|]. split; [reflexivity|]. split.
    + split; [|contradiction]. intros (preset & Hin). simpl in Hin.
      repeat (destruct Hin as [Hin|Hin]; [discriminate|]). contradiction.
    + intros Css transform css chain. unfold compile.
      rewrite module_exports_other by exact Henv. reflexivity.
Qed.

(** C10: only the string [production] itself turns minification on: for
    any other value of the flag the pipeline is the three stages. *)
Theorem minification_needs_exact_production (ctx : gmap string jsval) :
  JS.get ctx "env" <> JString "production" ->
  loadPlugins (module_exports ctx)
  = Some [PostcssImport; Tailwindcss; PostcssNested].
Proof.
  exact (module_exports_other ctx).
Qed.

Lemma minification_needs_exact_production_witness :
  JS.get (<["env" := JString "PRODUCTION"]> ∅) "env" <> JString "production"
  /\ loadPlugins (module_exports (<["env" := JString "PRODUCTION"]> ∅))
     = Some [PostcssImport; Tailwindcss; PostcssNested].
Proof.
  assert (H : JS.get (<["env" := JString "PRODUCTION"]> ∅) "env"
              <> JString "production").
  { vm_compute. discriminate. }
  split; [exact H|].
  exact (minification_needs_exact_production _ H).
Defined.

(** The values the flag is most likely to have when it is not production. *)
Example flag_values_without_minification :
  Forall (fun env => loadPlugins (module_exports (<["env" := env]> ∅))
                     = Some [PostcssImport; Tailwindcss; PostcssNested])
         [JUndefined; JNull; JString "prod"; JString "PRODUCTION";
          JString "development"; JString "production "; JBoolean true;
          JNumber 1; JObject 1%positive]
  /\ loadPlugins (module_exports ∅)
     = Some [PostcssImport; Tailwindcss; PostcssNested]
  /\ loadPlugins (module_exports (<["env" := JString "production"]> ∅))
     = Some [PostcssImport; Tailwindcss; PostcssNested; Cssnano "default"].
Proof.
  split; [|split; vm_compute; reflexivity].
  repeat constructor.
Qed.
End Pipeline.


(** * Further properties of the configuration *)

(** ** The [posts] collection as one filter *)

Section MoreFilter.
Context {A B : Type}.

Lemma filter_filter_andb (f g : A -> bool) (l : list A) :
  List.filter g (List.filter f l) = List.filter (fun x => f x && g x) l.
Proof.
  induction l as [|a l IH]; simpl; [reflexivity|].
  destruct (f a); simpl; [destruct (g a); now rewrite IH | exact IH].
Qed.

Lemma filter_idempotent (f : A -> bool) (l : list A) :
  List.filter f (List.filter f l) = List.filter f l.
Proof.
  induction l as [|a l IH]; simpl; [reflexivity|].
  destruct (f a) eqn:Fa; simpl; [now rewrite Fa, IH | exact IH].
Qed.

Lemma filter_map_commute (f : B -> bool) (g : A -> B) (l : list A) :
  List.filter f (List.map g l) = List.map g (List.filter (fun x => f (g x)) l).
Proof.
  induction l as [|a l IH]; simpl; [reflexivity|].
  destruct (f (g a)); simpl; now rewrite IH.
Qed.
End MoreFilter.

Lemma postsCollection_listed (api : CollectionApi) :
  postsCollection api = List.filter listed (getAll api).
Proof.
  unfold postsCollection, getFilteredByGlob. apply filter_filter_andb.
Qed.

Lemma listed_spec (item : Item) :
  listed item = true
  <-> Glob.isGlobMatch (inputPath item) "_posts/*.md" = true
      /\ JS.get (data item) "hidden" <> JBoolean true.
Proof.
  unfold listed. rewrite Bool.andb_true_iff, notHidden_spec. reflexivity.
Qed.

(** X1: every item of the [posts] collection was read from a file directly
    in [_posts] at the project root: its path, without a leading [./], is
    [_posts/], a file name without [/], and [.md]. *)
Theorem posts_paths_shape (api : CollectionApi) (P : Item) :
  In P (postsCollection api) ->
  exists name,
    Glob.stripLeadingDotSlash (inputPath P) = ("_posts/" ++ name ++ ".md")%string
    /\ ~ In Glob.slash (list_ascii_of_string name).
Proof.
  rewrite postsCollection_listed, List.filter_In, listed_spec.
  intros (_ & Hglob & _).
  apply isGlobMatch_posts in Hglob as (name & Hp & Hname).
  exists (string_of_list_ascii name). split.
  - rewrite <- (string_of_list_ascii_of_string (Glob.stripLeadingDotSlash (inputPath P))).
    rewrite Hp, !string_of_list_ascii_app. reflexivity.
  - rewrite list_ascii_of_string_of_list_ascii.
    rewrite List.Forall_forall in Hname. intros Hin. exact (Hname _ Hin eq_refl).
Qed.

Lemma posts_paths_shape_witness :
  In Fixture.craftPost (postsCollection Fixture.api)
  /\ exists name,
       Glob.stripLeadingDotSlash (inputPath Fixture.craftPost)
       = ("_posts/" ++ name ++ ".md")%string
       /\ ~ In Glob.slash (list_ascii_of_string name).
Proof.
  assert (H : In Fixture.craftPost (postsCollection Fixture.api)).
  { vm_compute. left. reflexivity. }
  split; [exact H|].
  exact (posts_paths_shape Fixture.api Fixture.craftPost H).
Defined.




(** X4: filtering again changes nothing: the collection of the [posts]
    collection is the [posts] collection. *)
Theorem postsCollection_idempotent (api : CollectionApi) :
  postsCollection (apiOf (postsCollection api)) = postsCollection api.
Proof.
  rewrite !postsCollection_listed. simpl. apply filter_idempotent.
Qed.

(** X5: when the generator holds no item twice, the [posts] collection
    holds no item twice, and it is never longer than the generator's list. *)
Theorem postsCollection_NoDup (api : CollectionApi) :
  List.NoDup (getAll api) ->
  List.NoDup (postsCollection api)
  /\ (length (postsCollection api) <= length (getAll api))%nat.
Proof.
  intros Hnd. rewrite postsCollection_listed. split.
  - apply List.NoDup_filter. exact Hnd.
  - apply List.filter_length_le.
Qed.

Lemma postsCollection_NoDup_witness :
  List.NoDup (getAll Fixture.api)
  /\ List.NoDup (postsCollection Fixture.api)
  /\ (length (postsCollection Fixture.api) <= length (getAll Fixture.api))%nat.
Proof.
  assert (H : List.NoDup (getAll Fixture.api)).
  { apply (List.NoDup_map_inv inputPath). vm_compute.
    repeat (constructor;
            [intros Hin; repeat (destruct Hin as [Hin|Hin]; [discriminate|]); exact Hin|]).
    constructor. }
  split; [exact H|].
  exact (postsCollection_NoDup Fixture.api H).
Defined.

(** X6: only the [hidden] attribute decides: setting any other front-matter
    attribute on every item (a title, a layout) commutes with the
    collection, so it neither adds, removes nor moves an entry. *)
Theorem postsCollection_other_attribute (api : CollectionApi) (k : string) (v : jsval) :
  k <> "hidden" ->
  postsCollection (apiOf (List.map (setData k v) (getAll api)))
  = List.map (setData k v) (postsCollection api).
Proof.
  intros Hk. rewrite !postsCollection_listed. simpl.
  rewrite filter_map_commute. f_equal. apply List.filter_ext.
  intros item. unfold listed, notHidden, JS.get, setData; simpl.
  rewrite lookup_insert_ne by exact Hk. reflexivity.
Qed.

Lemma postsCollection_other_attribute_witness :
  "title" <> "hidden"
  /\ postsCollection (apiOf (List.map (setData "title" (JString "Untitled"))
                                      (getAll Fixture.api)))
     = List.map (setData "title" (JString "Untitled")) (postsCollection Fixture.api).
Proof.
  assert (H : "title" <> "hidden") by discriminate.
  split; [exact H|].
  exact (postsCollection_other_attribute Fixture.api "title" (JString "Untitled") H).
Defined.

(** X13: writing [hidden: true] into the front matter of one file removes
    the entries read from that file and nothing else: the other entries stay,
    unchanged and in the same order. *)
Theorem hiding_removes_that_post (api : CollectionApi) (path : string) :
  postsCollection (apiOf (List.map (hide path) (getAll api)))
  = List.filter (fun item => negb (String.eqb (inputPath item) path))
                (postsCollection api).
Proof.
  rewrite !postsCollection_listed. simpl.
  induction (getAll api) as [|a l IH]; simpl; [reflexivity|].
  destruct (String.eqb (inputPath a) path) eqn:Hp.
  - assert (Ha : hide path a = setData "hidden" (JBoolean true) a)
      by (unfold hide; now rewrite Hp).
    assert (Hh : listed (setData "hidden" (JBoolean true) a) = false).
    { unfold listed, notHidden, strictNotEquals, JS.get, setData; simpl.
      rewrite lookup_insert_eq. simpl. apply Bool.andb_false_r. }
    rewrite Ha, Hh, IH. destruct (listed a); simpl; [rewrite Hp|]; reflexivity.
  - assert (Ha : hide path a = a) by (unfold hide; now rewrite Hp).
    rewrite Ha, IH. destruct (listed a); simpl; [rewrite Hp|]; reflexivity.
Qed.

(** Setting [hidden] itself does not commute: it empties the collection. *)
Example hiding_every_item :
  postsCollection (apiOf (List.map (setData "hidden" (JBoolean true)) (getAll Fixture.api)))
  = [].
Proof. vm_compute. reflexivity. Qed.

(** ** The image shortcode: the second failure and the files *)

(** X7: when the library has resized the image but [generateHTML] throws
    (as it does for a missing [alt]), the shortcode is rejected with that
    error after the two calls, and the files the library wrote stay written:
    nothing is undone. *)
Theorem imageShortcode_generateHTML_throws `{L : Library}
    (src alt sizes : jsval) (w : World)
    (metadata : Metadata) (fs : FileSystem) (e : JsError) :
  Image src imageOptions (files w) = (Resolved metadata, fs) ->
  generateHTML metadata {| alt := alt; sizes := sizes |} = Rejected e ->
  imageShortcode src alt sizes w
  = (Rejected e,
     {| files := fs;
        calls := calls w ++ [CallImage src imageOptions;
                             CallGenerateHTML metadata {| alt := alt; sizes := sizes |}] |}).
Proof.
  intros Himg Hhtml. rewrite imageShortcode_run, Himg, Hhtml. reflexivity.
Qed.

Lemma imageShortcode_generateHTML_throws_witness :
  let src := JString Fixture.before_png in
  let run := imageShortcode (L := Fixture.library) src JUndefined (JString "100vw")
               Fixture.world in
  fst run = Rejected {| code := "ERR_ALT"; message := "Missing `alt` attribute" |}
  /\ files (snd run) !! "./_site/img/b3f0-1450.png" = Some "b3f0".
Proof.
  intros src run. subst run.
  rewrite (imageShortcode_generateHTML_throws (L := Fixture.library)
             src JUndefined (JString "100vw") Fixture.world
             (List.map (fun w => (w, Fixture.variantPath imageOptions "b3f0" w))
                       (widths imageOptions))
             (snd (Fixture.image src imageOptions Fixture.tree))
             {| code := "ERR_ALT"; message := "Missing `alt` attribute" |}).
  - split; [reflexivity | vm_compute; reflexivity].
  - vm_compute. reflexivity.
  - vm_compute. reflexivity.
Defined.

(** X8: the alt text and the sizes attribute never reach the file system:
    whatever they are, a run leaves exactly the files the library's [Image]
    call for the source leaves. *)
Theorem imageShortcode_files `{L : Library}
    (src alt sizes alt' sizes' : jsval) (w : World) :
  files (snd (imageShortcode src alt sizes w)) = snd (Image src imageOptions (files w))
  /\ files (snd (imageShortcode src alt sizes w))
     = files (snd (imageShortcode src alt' sizes' w)).
Proof.
  rewrite !imageShortcode_run.
  destruct (Image src imageOptions (files w)) as [[metadata|e] fs]; split; reflexivity.
Qed.

(** ** The configuration function only adds *)


(** ** The stylesheet pipeline: what the configuration reads *)

Section MorePipeline.
Import Postcss.

(** X10: the configuration reads the context's [env] and nothing else: two
    contexts with the same [env] give the same plugins, whatever other
    properties (file, options) they carry. *)
Theorem postcss_reads_env_only (ctx1 ctx2 : gmap string jsval) :
  JS.get ctx1 "env" = JS.get ctx2 "env" ->
  module_exports ctx1 = module_exports ctx2.
Proof. intros H. unfold module_exports. rewrite H. reflexivity. Qed.

Lemma postcss_reads_env_only_witness :
  let ctx1 : gmap string jsval :=
    <["env" := JString "production"]> (<["file" := JString "css/main.css"]> ∅) in
  let ctx2 : gmap string jsval :=
    <["cwd" := JString "/srv/site"]> (<["env" := JString "production"]> ∅) in
  ctx1 <> ctx2 /\ module_exports ctx1 = module_exports ctx2.
Proof.
  intros ctx1 ctx2. split.
  - intros Heq. apply (f_equal (fun m => m !! "file")) in Heq.
    vm_compute in Heq. discriminate.
  - apply (postcss_reads_env_only ctx1 ctx2). vm_compute. reflexivity.
Defined.


End MorePipeline.

(** ** The framework scans every listed post *)

(** X12: every item of the [posts] collection matches one of the globs the
    framework configuration declares as content sources (the second one, the
    glob of the collection itself), so the utility classes a listed post
    uses are generated. *)
Theorem listed_posts_are_purge_sources (api : CollectionApi) (P : Item) :
  In P (postsCollection api) ->
  exists glob,
    In glob (Tailwind.purge Tailwind.module_exports)
    /\ Glob.isGlobMatch (inputPath P) glob = true.
Proof.
  rewrite postsCollection_listed, List.filter_In, listed_spec.
  intros (_ & Hglob & _). exists "_posts/*.md"%string. split; [|exact Hglob].
  simpl. right. left. reflexivity.
Qed.

Lemma listed_posts_are_purge_sources_witness :
  In Fixture.vuePost (postsCollection Fixture.api)
  /\ exists glob,
       In glob (Tailwind.purge Tailwind.module_exports)
       /\ Glob.isGlobMatch (inputPath Fixture.vuePost) glob = true.
Proof.
  assert (H : In Fixture.vuePost (postsCollection Fixture.api)).
  { vm_compute. do 2 right. left. reflexivity. }
  split; [exact H|].
  exact (listed_posts_are_purge_sources Fixture.api Fixture.vuePost H).
Defined.
